(** * GraphicDesignerTool: the image generator core

    A shallow embedding of [src/graphic_designer_tool/core/image_generator.py]
    and the properties of its class [ImageGenerator].

    [src/graphic_designer_tool/main.py] only reads the configuration, builds
    one [ImageGenerator] and hands its [get_images] to the user interface.

    The class talks to three collaborators that are not part of the
    repository: [openai.images.generate], [requests.get] and
    [PIL.Image.open].  They are modelled as an interface ([External]) whose
    operations act on an abstract state of the outside world and may raise.
    Python code is written in a small state-and-exception monad [Py]; every
    call that leaves the process is appended, with its answer, to a trace. *)

From Stdlib Require Import ZArith Strings.Byte.
From stdpp Require Import base option list strings gmap.

Open Scope Z_scope.
Open Scope string_scope.
Open Scope list_scope.

(** ** Python values, exceptions and results *)

(** The values the instance attributes hold: [str] and [int]. *)
Inductive value : Type :=
| VStr (s : string)
| VInt (i : Z).

#[global] Instance value_eq_dec : EqDecision value.
Proof. solve_decision. Defined.

(** A raised exception: its class and its message. *)
Record exn : Type := Exn { exn_class : string; exn_msg : string }.

Definition ValueError (msg : string) : exn := Exn "ValueError" msg.
Definition IndexError (msg : string) : exn := Exn "IndexError" msg.
Definition AttributeError (msg : string) : exn := Exn "AttributeError" msg.

(** The outcome of evaluating a Python expression. *)
Inductive result (A : Type) : Type :=
| Ok (a : A)
| Raised (e : exn).
Arguments Ok {A} a.
Arguments Raised {A} e.

(** ** Data exchanged with the collaborators *)

(** One element of [openai.images.generate(...).data]. *)
Record ImageData : Type := { url : string }.

(** What [requests.get] returns. *)
Record Response : Type := { status_code : Z; content : list byte }.

(** The keyword arguments of [openai.images.generate]. *)
Record generate_kwargs : Type := {
  kw_model : value;
  kw_prompt : value;
  kw_size : value;
  kw_quality : value;
  kw_n : value
}.

(** The collaborators.  [W] is the state of the outside world (the provider,
    the image hosts, the clock), [Image] the type of decoded PIL images.
    Each operation receives the world it is called in and gives back its
    answer and the world it leaves. *)
Class External (W Image : Type) : Type := {
  (** [openai.images.generate(model=.., prompt=.., size=.., quality=..,
      n=..).data] *)
  openai_images_generate :
    generate_kwargs → W → result (list ImageData) * W;
  (** [requests.get(url, timeout=timeout)] *)
  requests_get : string → Z → W → result Response * W;
  (** [Image.open(io.BytesIO(data))] *)
  Image_open : list byte → W → result Image * W
}.

(** A call that left the process, with the answer it got. *)
Inductive event (Image : Type) : Type :=
| EvGenerate (kw : generate_kwargs) (r : result (list ImageData))
| EvGet (u : string) (timeout : Z) (r : result Response)
| EvOpen (data : list byte) (r : result Image).
Arguments EvGenerate {Image} kw r.
Arguments EvGet {Image} u timeout r.
Arguments EvOpen {Image} data r.

(** ** The interpreter state and the monad *)

(** [obj] is the [__dict__] of the one [ImageGenerator] instance, [world]
    the outside world, [trace] the calls made so far, oldest first. *)
Record machine (W Image : Type) : Type := Machine {
  obj : gmap string value;
  world : W;
  trace : list (event Image)
}.
Arguments Machine {W Image} obj world trace.
Arguments obj {W Image} m.
Arguments world {W Image} m.
Arguments trace {W Image} m.

Definition Py (W Image A : Type) : Type :=
  machine W Image → result A * machine W Image.

Section Monad.
Context {W Image : Type}.

Definition ret {A} (a : A) : Py W Image A := λ m, (Ok a, m).

Definition raise {A} (e : exn) : Py W Image A := λ m, (Raised e, m).

(** Sequencing: an exception of the first part ends the evaluation. *)
Definition bind {A B} (c : Py W Image A) (k : A → Py W Image B)
  : Py W Image B :=
  λ m, match c m with
       | (Ok a, m') => k a m'
       | (Raised e, m') => (Raised e, m')
       end.

(** [self.name = v] *)
Definition setattr (name : string) (v : value) : Py W Image unit :=
  λ m, (Ok tt, Machine (<[name := v]> (obj m)) (world m) (trace m)).

(** [self.name] *)
Definition getattr (name : string) : Py W Image value :=
  λ m, match obj m !! name with
       | Some v => (Ok v, m)
       | None =>
           (Raised (AttributeError
              ("'ImageGenerator' object has no attribute '" +:+ name +:+ "'")),
            m)
       end.

(** A call to a collaborator: the world moves and the call is logged. *)
Definition external {X} (op : W → result X * W)
    (log : result X → event Image) : Py W Image X :=
  λ m, let '(r, w') := op (world m) in
       (r, Machine (obj m) w' (trace m ++ [log r])).
End Monad.

Declare Scope py_scope.
Delimit Scope py_scope with py.
Notation "x <- c ;; k" := (bind c (λ x, k))
  (at level 100, c at next level, right associativity) : py_scope.
Notation "c ;;; k" := (bind c (λ _, k))
  (at level 100, right associativity) : py_scope.
Open Scope py_scope.

(** ** class ImageGenerator *)

Definition allowed_dims : list value :=
  [VStr "1024x1024"; VStr "1024x1792"; VStr "1792x1024"].

Section ImageGenerator.
Context {W Image : Type} `{!External W Image}.

(** [def __init__(self, model: str, quality: str, n: int, dim: str)] *)
Definition __init__ (model quality : string) (n : Z) (dim : string)
  : Py W Image unit :=
  setattr "model" (VStr model) ;;;
  setattr "quality" (VStr quality) ;;;
  setattr "n" (VInt n) ;;;
  setattr "dim" (VStr dim) ;;;
  self_dim <- getattr "dim" ;;
  if bool_decide (self_dim ∉ allowed_dims) then
    raise (ValueError
             "Dimension must be '1024x1024', '1024x1792' or '1792x1024'")
  else ret tt.

(** The expression [ImageGenerator(model, quality, n, dim)]: a fresh
    instance with no attribute is handed to [__init__]. *)
Definition ImageGenerator (model quality : string) (n : Z) (dim : string)
  : Py W Image unit :=
  λ m, __init__ model quality n dim (Machine ∅ (world m) (trace m)).

(** [def generate_visual(self, visual_description: str) -> list[str]] *)
Definition generate_visual (visual_description : string)
  : Py W Image (list string) :=
  self_model <- getattr "model" ;;
  self_dim <- getattr "dim" ;;
  self_quality <- getattr "quality" ;;
  self_n <- getattr "n" ;;
  let kw := {| kw_model := self_model;
               kw_prompt :=
                 VStr ("Create a visual following this description: "
                       +:+ visual_description);
               kw_size := self_dim;
               kw_quality := self_quality;
               kw_n := self_n |} in
  responses <- external (openai_images_generate kw) (EvGenerate kw) ;;
  ret (map url responses).

(** [@staticmethod def get_image_from_url(url: str) -> bytes] *)
Definition get_image_from_url (u : string) : Py W Image (list byte) :=
  response <- external (requests_get u 10) (EvGet u 10) ;;
  ret (content response).

(** The loop [for image_url in generated_image_urls:
                images.append(self.get_image_from_url(image_url))],
    started with the list [images] built so far. *)
Fixpoint for_image_url (generated_image_urls : list string)
    (images : list (list byte)) : Py W Image (list (list byte)) :=
  match generated_image_urls with
  | [] => ret images
  | image_url :: rest =>
      data <- get_image_from_url image_url ;;
      for_image_url rest (images ++ [data])
  end.

(** [images[0]] *)
Definition getitem {A} (l : list A) (i : nat) : Py W Image A :=
  match l !! i with
  | Some x => ret x
  | None => raise (IndexError "list index out of range")
  end.

(** [def get_images(self, visual_description: str) -> Image] *)
Definition get_images (visual_description : string) : Py W Image Image :=
  generated_image_urls <- generate_visual visual_description ;;
  images <- for_image_url generated_image_urls [] ;;
  first <- getitem images 0 ;;
  external (Image_open first) (EvOpen first).
End ImageGenerator.

(** ** Reading traces *)

Section Traces.
Context {Image : Type}.

(** The exception a logged call ended with, if it did. *)
Definition failed (ev : event Image) : option exn :=
  match ev with
  | EvGenerate _ (Raised e) | EvGet _ _ (Raised e) | EvOpen _ (Raised e) =>
      Some e
  | _ => None
  end.

(** Every call of the trace was answered. *)
Definition answered (t : list (event Image)) : Prop :=
  Forall (λ ev, failed ev = None) t.

(** The [requests.get] calls of a trace: URL and timeout, oldest first. *)
Fixpoint fetched (t : list (event Image)) : list (string * Z) :=
  match t with
  | [] => []
  | EvGet u timeout _ :: t' => (u, timeout) :: fetched t'
  | _ :: t' => fetched t'
  end.

(** The buffers handed to [Image.open] in a trace, oldest first. *)
Fixpoint decoded (t : list (event Image)) : list (list byte) :=
  match t with
  | [] => []
  | EvOpen data _ :: t' => data :: decoded t'
  | _ :: t' => decoded t'
  end.

(** The payloads of the answered [requests.get] calls of a trace. *)
Fixpoint payloads (t : list (event Image)) : list (list byte) :=
  match t with
  | [] => []
  | EvGet _ _ (Ok response) :: t' => content response :: payloads t'
  | _ :: t' => payloads t'
  end.

(** The first exception in a trace. *)
Fixpoint first_failure (t : list (event Image)) : option exn :=
  match t with
  | [] => None
  | ev :: t' =>
      match failed ev with
      | Some e => Some e
      | None => first_failure t'
      end
  end.
End Traces.

(** ** What the specification expects *)

(** The attributes a pipeline built from [(model, quality, n, dim)] holds. *)
Definition instance_dict (model quality : string) (n : Z) (dim : string)
  : gmap string value :=
  <["dim" := VStr dim]>
    (<["n" := VInt n]>
       (<["quality" := VStr quality]> (<["model" := VStr model]> ∅))).

(** The three accepted dimension strings. *)
Definition dimensions : list string :=
  ["1024x1024"; "1024x1792"; "1792x1024"].

Section Expectations.
Context {W Image : Type} `{!External W Image}.

(** The instance held by [m] is one that [ImageGenerator(model, quality,
    n, dim)] returned. *)
Definition constructed (model quality : string) (n : Z) (dim : string)
    (m : machine W Image) : Prop :=
  ∃ m0 m1 : machine W Image,
    ImageGenerator model quality n dim m0 = (Ok tt, m1) ∧ obj m = obj m1.

(** The request the specification describes for a pipeline built from
    [(model, quality, n, dim)] and the description [d]. *)
Definition request_kwargs (model quality : string) (n : Z) (dim d : string)
  : generate_kwargs :=
  {| kw_model := VStr model;
     kw_prompt := VStr ("Create a visual following this description: " +:+ d);
     kw_size := VStr dim;
     kw_quality := VStr quality;
     kw_n := VInt n |}.

(** The URLs requested one after the other: each request is made in the
    world the previous one left, and the first one that raises is the
    last.  Gives the calls with their answers and the world at the end. *)
Fixpoint one_by_one (urls : list string) (w : W) : list (event Image) * W :=
  match urls with
  | [] => ([], w)
  | u :: rest =>
      match requests_get u 10 w with
      | (Ok response, w1) =>
          let '(t, w2) := one_by_one rest w1 in
          (EvGet u 10 (Ok response) :: t, w2)
      | (Raised e, w1) => ([EvGet u 10 (Raised e)], w1)
      end
  end.

(** In the calls [t] made by a computation that ended with [r], either
    every call was answered, or the only call that raised is the last one
    and [r] is the exception it raised. *)
Definition propagates {A} (t : list (event Image)) (r : result A) : Prop :=
  answered t ∨
  ∃ t0 ev e,
    t = t0 ++ [ev] ∧ answered t0 ∧ failed ev = Some e ∧ r = Raised e.

(** A computation that only appends to the trace, leaves the attributes
    of the instance alone and lets the exceptions of its calls through. *)
Definition disciplined {A} (c : Py W Image A) : Prop :=
  ∀ m, ∃ t,
    trace (c m).2 = trace m ++ t ∧
    obj (c m).2 = obj m ∧
    propagates t (c m).1.
End Expectations.

(** ** Collaborators for the examples *)

Module Mock.
(** The world counts the calls it has served; a decoded image is the
    buffer it was read from. *)

Definition timeout_error : exn :=
  Exn "requests.exceptions.ConnectTimeout" "timed out".

Definition image1 : ImageData := {| url := "https://example.com/image1.png" |}.
Definition image2 : ImageData := {| url := "https://example.com/image2.png" |}.

(** The provider answers [data]; a host answers [host u w]. *)
Definition collaborators (data : list ImageData)
    (host : string → nat → result Response) : External nat (list byte) :=
  {| openai_images_generate := λ _ w, (Ok data, S w);
     requests_get := λ u _ w, (host u w, S w);
     Image_open := λ data w, (Ok data, S w) |}.

(** Every host answers 200 with the bytes of the URL. *)
Definition serve (u : string) (w : nat) : result Response :=
  Ok {| status_code := 200; content := String.list_byte_of_string u |}.

(** Every host answers 404 with an error page. *)
Definition not_found (u : string) (w : nat) : result Response :=
  Ok {| status_code := 404;
        content := String.list_byte_of_string "Not Found" |}.

(** The second request served by the world never completes. *)
Definition second_times_out (u : string) (w : nat) : result Response :=
  if decide (w = 2%nat) then Raised timeout_error else serve u w.

(** The collaborators of the test suite: two images, hosts that answer. *)
Definition two_images : External nat (list byte) :=
  collaborators [image1; image2] serve.

Definition start : machine nat (list byte) := Machine ∅ 0%nat [].

(** The instance of the test suite: [ImageGenerator('dall-e', 'high', 2,
    '1024x1024')]. *)
Definition generator : machine nat (list byte) :=
  Machine (instance_dict "dall-e" "high" 2 "1024x1024") 0%nat [].

Definition image1_bytes : list byte :=
  String.list_byte_of_string "https://example.com/image1.png".

Definition response1 : Response :=
  {| status_code := 200; content := image1_bytes |}.

Definition response2 : Response :=
  {| status_code := 200;
     content := String.list_byte_of_string "https://example.com/image2.png" |}.

Definition error_page : Response :=
  {| status_code := 404;
     content := String.list_byte_of_string "Not Found" |}.

(** The request the test instance sends for the description [d]. *)
Definition request (d : string) : generate_kwargs :=
  {| kw_model := VStr "dall-e";
     kw_prompt := VStr ("Create a visual following this description: " +:+ d);
     kw_size := VStr "1024x1024";
     kw_quality := VStr "high";
     kw_n := VInt 2 |}.
End Mock.

(** ** main.py *)

Definition KeyError (key : string) : exn :=
  Exn "KeyError" ("'" +:+ key +:+ "'").

(** What [main] uses besides the class.  [load_config] belongs to
    [graphic_designer_tool/core/config.py], which is not among the sources
    at hand: it is a parameter here, a function that reads the outside world
    and answers a dictionary or raises.  The others are the [gradio]
    library: they may do anything, calling the function they are given
    included.  [Component] and [Demo] are the types of the [gradio]
    objects. *)
Class Application (W Image Component Demo : Type) : Type := {
  (** [load_config(config_path=path)] *)
  load_config : string → W → result (gmap string value) * W;
  (** [gradio.Textbox(label=.., placeholder=..)] *)
  gradio_Textbox : string → string → Py W Image Component;
  (** [gradio.Image(label=..)] *)
  gradio_Image : string → Py W Image Component;
  (** [gradio.Interface(fn=.., inputs=.., outputs=.., title=..)] *)
  gradio_Interface :
    (string → Py W Image Image) → Component → Component → string →
    Py W Image Demo;
  (** [demo.launch()] *)
  launch : Demo → Py W Image unit
}.

(** The keys [main] reads, in the order it reads them. *)
Definition config_keys : list string :=
  ["n_image"; "image_dim"; "image_model"; "image_quality"].

(** The first of them that a dictionary lacks. *)
Definition first_missing (params : gmap string value) : option string :=
  find (λ key, bool_decide (params !! key = None)) config_keys.

Section Main.
Context {W Image Component Demo : Type}.
Context `{!External W Image} `{!Application W Image Component Demo}.

(** [params[key]] on a dictionary *)
Definition subscript (params : gmap string value) (key : string)
  : Py W Image value :=
  match params !! key with
  | Some v => ret v
  | None => raise (KeyError key)
  end.

(** The body of [__init__] on the arguments as Python passes them: the
    annotations [str] and [int] are not checked. *)
Definition init_values (model quality n dim : value) : Py W Image unit :=
  setattr "model" model ;;;
  setattr "quality" quality ;;;
  setattr "n" n ;;;
  setattr "dim" dim ;;;
  self_dim <- getattr "dim" ;;
  if bool_decide (self_dim ∉ allowed_dims) then
    raise (ValueError
             "Dimension must be '1024x1024', '1024x1792' or '1792x1024'")
  else ret tt.

(** [ImageGenerator(n=.., dim=.., model=.., quality=..)], the arguments
    being whatever the configuration holds. *)
Definition ImageGenerator_call (model quality n dim : value)
  : Py W Image unit :=
  λ m, init_values model quality n dim (Machine ∅ (world m) (trace m)).

(** The end of [main]: [demo = gradio.Interface(fn=image_generator.get_images,
    inputs=gradio.Textbox(..), outputs=gradio.Image(..), title=..)] and
    [demo.launch()]. *)
Definition launch_interface : Py W Image unit :=
  inputs <- gradio_Textbox "Visual description"
              ("Type the description of the visual you want to create "
               +:+ "here here...") ;;
  outputs <- gradio_Image "Generated visual" ;;
  demo <- gradio_Interface get_images inputs outputs
            "Graphic designer tool" ;;
  launch demo.

(** [def main() -> None] *)
Definition main : Py W Image unit :=
  params <- (λ m, let '(r, w') := load_config "configs/params.yml" (world m) in
                  (r, Machine (obj m) w' (trace m))) ;;
  n <- subscript params "n_image" ;;
  dim <- subscript params "image_dim" ;;
  model <- subscript params "image_model" ;;
  quality <- subscript params "image_quality" ;;
  ImageGenerator_call model quality n dim ;;;
  launch_interface.
End Main.

(** The generation requests of a trace, oldest first. *)
Fixpoint generated {Image : Type} (t : list (event Image))
  : list generate_kwargs :=
  match t with
  | [] => []
  | EvGenerate kw _ :: t' => kw :: generated t'
  | _ :: t' => generated t'
  end.

(** ** An application for the examples *)

Module MockApp.
(** The configuration of [test_main_success]. *)
Definition config : gmap string value :=
  <["n_image" := VInt 2]>
    (<["image_dim" := VStr "1024x1024"]>
       (<["image_model" := VStr "dall-e"]>
          (<["image_quality" := VStr "high"]> ∅))).

(** The configuration of [test_main_invalid_config]. *)
Definition invalid_config : gmap string value :=
  <["n_image" := VInt (-1)]>
    (<["image_dim" := VStr "800x600"]>
       (<["image_model" := VStr "invalid_model"]>
          (<["image_quality" := VStr "low"]> ∅))).

(** A configuration file without [image_model], with a bad [image_dim]. *)
Definition incomplete_config : gmap string value :=
  <["n_image" := VInt 2]>
    (<["image_dim" := VStr "800x600"]>
       (<["image_quality" := VStr "high"]> ∅)).

(** [load_config] answers [params]; the interface, once launched, asks its
    function for one image and drops it. *)
Definition application (params : gmap string value)
  : Application nat (list byte) string
      (string → Py nat (list byte) (list byte)) :=
  {| load_config := λ _ w, (Ok params, S w);
     gradio_Textbox := λ label _, ret label;
     gradio_Image := λ label, ret label;
     gradio_Interface := λ fn _ _ _, ret fn;
     launch := λ demo, (demo "A forest at sunset" ;;; ret tt) |}.

(** The provider refuses every request. *)
Definition refused : exn := Exn "openai.RateLimitError" "Rate limit reached".

Definition refusing : External nat (list byte) :=
  {| openai_images_generate := λ _ w, (Raised refused, S w);
     requests_get := λ u _ w, (Mock.serve u w, S w);
     Image_open := λ data w, (Ok data, S w) |}.
End MockApp.

(** * Properties *)

(** ** The monad *)

Section MonadFacts.
Context {W Image : Type}.
Implicit Types m : machine W Image.

Lemma machine_eta m : Machine (obj m) (world m) (trace m) = m.
Proof. by destruct m. Qed.

Lemma bind_ok {A B} (c : Py W Image A) (k : A → Py W Image B) m a m' :
  c m = (Ok a, m') → bind c k m = k a m'.
Proof. unfold bind. by intros ->. Qed.

Lemma getattr_some name v m :
  obj m !! name = Some v → getattr name m = (Ok v, m).
Proof. unfold getattr. by intros ->. Qed.

Lemma external_run {X} (op : W → result X * W) log m :
  external op log m =
    ((op (world m)).1,
     Machine (obj m) (op (world m)).2 (trace m ++ [log (op (world m)).1])).
Proof. unfold external. by destruct (op (world m)). Qed.
End MonadFacts.

(** ** Traces *)

Section TraceFacts.
Context {Image : Type}.
Implicit Types t : list (event Image).

Lemma decoded_app t1 t2 : decoded (t1 ++ t2) = decoded t1 ++ decoded t2.
Proof.
  induction t1 as [|[] t1 IH]; simpl; [done| | |]; by rewrite ?IH.
Qed.

Lemma answered_no_failure t : answered t → first_failure t = None.
Proof.
  induction 1 as [|ev t Hev _ IH]; simpl; [done|]. by rewrite Hev.
Qed.

(** A failed call that is followed by another call is not the last one. *)
Lemma answered_snoc_split t0 ev0 t1 ev t2 e :
  answered t0 → t0 ++ [ev0] = t1 ++ ev :: t2 → failed ev = Some e →
  t2 = [] ∧ ev = ev0.
Proof.
  intros Ht0 Heq Hev. destruct t2 as [|x t2 _] using rev_ind.
  - by apply app_inj_tail in Heq as [_ ->].
  - change (t0 ++ [ev0] = t1 ++ [ev] ++ t2 ++ [x]) in Heq.
    rewrite !app_assoc in Heq. apply app_inj_tail in Heq as [-> _].
    rewrite <- app_assoc in Ht0.
    apply Forall_app in Ht0 as [_ Ht0]. apply Forall_app in Ht0 as [Ht0 _].
    apply Forall_inv in Ht0. congruence.
Qed.
End TraceFacts.

(** ** Construction *)

Section Construction.
Context {W Image : Type}.
Implicit Types m : machine W Image.

Lemma allowed_dims_dimensions dim :
  VStr dim ∈ allowed_dims ↔ dim ∈ dimensions.
Proof.
  unfold allowed_dims, dimensions. rewrite !elem_of_cons, !elem_of_nil.
  split; intros [H|[H|[H|[]]]]; simplify_eq; auto.
Qed.

(** [__init__] stores the four arguments, then checks the dimensions. *)
Lemma ImageGenerator_run model quality n dim m :
  ImageGenerator model quality n dim m =
    (if bool_decide (dim ∈ dimensions) then Ok tt
     else
       Raised
         (ValueError
            "Dimension must be '1024x1024', '1024x1792' or '1792x1024'"),
     Machine (instance_dict model quality n dim) (world m) (trace m)).
Proof.
  unfold ImageGenerator, __init__, bind, setattr, getattr, ret, raise.
  cbn [obj world trace]. rewrite lookup_insert_eq.
  fold (instance_dict model quality n dim).
  destruct (decide (dim ∈ dimensions)) as [Hin|Hout].
  - rewrite (bool_decide_eq_true_2 _ Hin).
    rewrite bool_decide_eq_false_2; [done|].
    intros Hn. by apply Hn, allowed_dims_dimensions.
  - rewrite (bool_decide_eq_false_2 _ Hout).
    rewrite bool_decide_eq_true_2; [done|].
    by rewrite allowed_dims_dimensions.
Qed.

Lemma constructed_inv model quality n dim m :
  constructed model quality n dim m →
  dim ∈ dimensions ∧ obj m = instance_dict model quality n dim.
Proof.
  intros (m0 & m1 & Hrun & ->). rewrite ImageGenerator_run in Hrun.
  case_bool_decide; [|done]. by simplify_eq.
Qed.

Lemma instance_dict_lookup model quality n dim :
  instance_dict model quality n dim !! "model" = Some (VStr model) ∧
  instance_dict model quality n dim !! "quality" = Some (VStr quality) ∧
  instance_dict model quality n dim !! "n" = Some (VInt n) ∧
  instance_dict model quality n dim !! "dim" = Some (VStr dim).
Proof. unfold instance_dict. repeat split; by simplify_map_eq. Qed.
End Construction.

(** ** The methods *)

Section Methods.
Context {W Image : Type} `{!External W Image}.
Implicit Types m : machine W Image.

(** [generate_visual] on a constructed instance: one request, whose answer
    decides the outcome. *)
Lemma generate_visual_run model quality n dim d m :
  obj m = instance_dict model quality n dim →
  let kw := request_kwargs model quality n dim d in
  let out := openai_images_generate kw (world m) in
  generate_visual d m =
    (match out.1 with
     | Ok responses => Ok (map url responses)
     | Raised e => Raised e
     end,
     Machine (obj m) out.2 (trace m ++ [EvGenerate kw out.1])).
Proof.
  intros Ho kw out. unfold generate_visual.
  destruct (instance_dict_lookup model quality n dim) as (Hm & Hq & Hn & Hd).
  rewrite <- Ho in Hm, Hq, Hn, Hd.
  rewrite (bind_ok _ _ _ _ _ (getattr_some _ _ _ Hm)).
  rewrite (bind_ok _ _ _ _ _ (getattr_some _ _ _ Hd)).
  rewrite (bind_ok _ _ _ _ _ (getattr_some _ _ _ Hq)).
  rewrite (bind_ok _ _ _ _ _ (getattr_some _ _ _ Hn)).
  fold (request_kwargs model quality n dim d). fold kw.
  unfold bind. rewrite external_run. fold out.
  by destruct (out.1).
Qed.

Lemma get_image_from_url_run u m :
  let out := requests_get u 10 (world m) in
  get_image_from_url u m =
    (match out.1 with
     | Ok response => Ok (content response)
     | Raised e => Raised e
     end,
     Machine (obj m) out.2 (trace m ++ [EvGet u 10 out.1])).
Proof.
  intros out. unfold get_image_from_url, bind. rewrite external_run.
  fold out. by destruct (out.1).
Qed.

(** The loop makes the requests of [one_by_one] and collects the payloads;
    the first request that raises ends it. *)
Lemma for_image_url_run urls images m :
  let seq := one_by_one urls (world m) in
  for_image_url urls images m =
    (match first_failure seq.1 with
     | Some e => Raised e
     | None => Ok (images ++ payloads seq.1)
     end,
     Machine (obj m) seq.2 (trace m ++ seq.1)).
Proof.
  revert images m. induction urls as [|u rest IH]; intros images m; simpl.
  - unfold ret. by rewrite !app_nil_r, machine_eta.
  - unfold bind. rewrite get_image_from_url_run.
    destruct (requests_get u 10 (world m)) as [[response|e] w1]; simpl.
    + rewrite IH. cbn [obj world trace].
      destruct (one_by_one rest w1) as [t w2]; simpl.
      by rewrite <- !app_assoc.
    + done.
Qed.

Lemma generate_visual_ok model quality n dim d m responses w1 :
  obj m = instance_dict model quality n dim →
  openai_images_generate (request_kwargs model quality n dim d) (world m)
    = (Ok responses, w1) →
  generate_visual d m =
    (Ok (map url responses),
     Machine (obj m) w1
       (trace m ++
        [EvGenerate (request_kwargs model quality n dim d) (Ok responses)])).
Proof.
  intros Ho Hgen. by rewrite (generate_visual_run _ _ _ _ _ _ Ho), Hgen.
Qed.

Lemma for_image_url_ok urls images o w tr t w1 :
  one_by_one urls w = (t, w1) → answered t →
  for_image_url urls images (Machine o w tr) =
    (Ok (images ++ payloads t), Machine o w1 (tr ++ t)).
Proof.
  intros Hseq Ht. rewrite for_image_url_run. cbn [obj world trace].
  rewrite Hseq. cbn [fst snd]. by rewrite (answered_no_failure _ Ht).
Qed.

Lemma one_by_one_cons_ok u rest w response w1 :
  requests_get u 10 w = (Ok response, w1) →
  one_by_one (u :: rest) w =
    (EvGet u 10 (Ok response) :: (one_by_one rest w1).1,
     (one_by_one rest w1).2).
Proof. intros Hget. simpl. rewrite Hget. by destruct (one_by_one rest w1). Qed.

Lemma one_by_one_fetched urls w :
  answered (one_by_one urls w).1 →
  fetched (one_by_one urls w).1 = map (λ u, (u, 10)) urls.
Proof.
  revert w. induction urls as [|u rest IH]; intros w; simpl; [done|].
  destruct (requests_get u 10 w) as [[response|e] w1]; simpl.
  - specialize (IH w1). destruct (one_by_one rest w1) as [t w2]; simpl in *.
    intros Ht. apply Forall_inv_tail in Ht. by rewrite IH.
  - intros Ht. by apply Forall_inv in Ht.
Qed.

Lemma one_by_one_prefix urls w :
  fetched (one_by_one urls w).1 `prefix_of` map (λ u, (u, 10)) urls.
Proof.
  revert w. induction urls as [|u rest IH]; intros w; simpl; [done|].
  destruct (requests_get u 10 w) as [[response|e] w1]; simpl.
  - specialize (IH w1). destruct (one_by_one rest w1) as [t w2].
    by apply prefix_cons.
  - apply prefix_cons, prefix_nil.
Qed.

Lemma one_by_one_decoded urls w : decoded (one_by_one urls w).1 = [].
Proof.
  revert w. induction urls as [|u rest IH]; intros w; simpl; [done|].
  destruct (requests_get u 10 w) as [[response|e] w1]; simpl; [|done].
  specialize (IH w1). by destruct (one_by_one rest w1).
Qed.
End Methods.

(** ** Exceptions and the instance across a method call *)

Create HintDb discipline.

Section Discipline.
Context {W Image : Type} `{!External W Image}.
Implicit Types m : machine W Image.

Lemma disciplined_ret {A} (a : A) : disciplined (ret a : Py W Image A).
Proof.
  intros m. exists []. simpl. rewrite app_nil_r.
  repeat split. left. constructor.
Qed.

Lemma disciplined_raise {A} e : disciplined (raise e : Py W Image A).
Proof.
  intros m. exists []. simpl. rewrite app_nil_r.
  repeat split. left. constructor.
Qed.

Lemma disciplined_getattr name :
  disciplined (getattr name : Py W Image value).
Proof.
  intros m. exists []. unfold getattr. rewrite app_nil_r.
  destruct (obj m !! name); simpl; repeat split; left; constructor.
Qed.

Lemma disciplined_external {X} (op : W → result X * W)
    (log : result X → event Image) :
  (∀ r, failed (log r)
        = match r with Ok _ => None | Raised e => Some e end) →
  disciplined (external op log).
Proof.
  intros Hlog m. rewrite external_run. exists [log (op (world m)).1].
  simpl. repeat split. specialize (Hlog (op (world m)).1).
  destruct ((op (world m)).1) as [x|e].
  - left. by repeat constructor.
  - right. exists [], (log (Raised e)), e. repeat split; [constructor|done].
Qed.

Lemma disciplined_bind {A B} (c : Py W Image A) (k : A → Py W Image B) :
  disciplined c → (∀ a, disciplined (k a)) → disciplined (bind c k).
Proof.
  intros Hc Hk m. destruct (Hc m) as (t1 & Ht1 & Ho1 & Hp1).
  unfold bind. destruct (c m) as [[a|e] m1]; simpl in *.
  - destruct (Hk a m1) as (t2 & Ht2 & Ho2 & Hp2).
    exists (t1 ++ t2). rewrite Ht2, Ht1, Ho2, Ho1, app_assoc.
    repeat split.
    destruct Hp1 as [Hp1|(? & ? & ? & _ & _ & _ & ?)]; [|done].
    destruct Hp2 as [Hp2|(t0 & ev & e & -> & Ht0 & Hev & Hr)].
    + left. by apply Forall_app.
    + right. exists (t1 ++ t0), ev, e. rewrite app_assoc.
      repeat split; [by apply Forall_app|done|done].
  - exists t1. simpl. repeat split; [done..|].
    destruct Hp1 as [Hp1|(t0 & ev & e' & ? & ? & ? & ?)]; [by left|].
    right. exists t0, ev, e'. by simplify_eq.
Qed.

#[local] Hint Resolve disciplined_ret disciplined_raise disciplined_getattr
  disciplined_bind : discipline.
#[local] Hint Extern 1 (disciplined (external _ _)) =>
  apply disciplined_external; intros []; reflexivity : discipline.

Lemma disciplined_generate_visual d : disciplined (generate_visual d).
Proof. unfold generate_visual. eauto 12 with discipline. Qed.

Lemma disciplined_get_image_from_url u : disciplined (get_image_from_url u).
Proof. unfold get_image_from_url. eauto with discipline. Qed.

Lemma disciplined_for_image_url urls images :
  disciplined (for_image_url urls images).
Proof.
  revert images. induction urls as [|u rest IH]; intros images; simpl;
    eauto using disciplined_get_image_from_url with discipline.
Qed.

Lemma disciplined_getitem {A} (l : list A) i :
  disciplined (getitem l i : Py W Image A).
Proof. unfold getitem. destruct (l !! i); auto with discipline. Qed.

Lemma disciplined_get_images d : disciplined (get_images d).
Proof.
  unfold get_images.
  eauto 8 using disciplined_generate_visual, disciplined_for_image_url,
    disciplined_getitem with discipline.
Qed.
End Discipline.

(** * The claims *)

Section Claims.
Context {W Image : Type} `{!External W Image}.
Implicit Types m : machine W Image.

(** C1. On a constructed pipeline, when the generation API answers with
    the descriptors [first :: others] and the hosts answer every fetch,
    [get_images] returns what [Image.open] gives for the payload of the
    answer to the fetch of the first URL, whatever the number of URLs, and
    that payload is the only buffer handed to [Image.open]. *)
Theorem get_images_decodes_first_buffer
    model quality n dim d m first others w1 response w2 :
  constructed model quality n dim m →
  openai_images_generate (request_kwargs model quality n dim d) (world m)
    = (Ok (first :: others), w1) →
  requests_get (url first) 10 w1 = (Ok response, w2) →
  answered (one_by_one (map url others) w2).1 →
  let w3 := (one_by_one (map url others) w2).2 in
  (get_images d m).1 = (Image_open (content response) w3).1 ∧
  ∃ t, trace (get_images d m).2 = trace m ++ t ∧
       decoded t = [content response].
Proof.
  intros Hc Hgen Hget Hrest w3.
  apply constructed_inv in Hc as [_ Ho].
  pose proof (one_by_one_cons_ok _ (map url others) _ _ _ Hget) as Hseq.
  assert (answered (EvGet (Image:=Image) (url first) 10 (Ok response)
                      :: (one_by_one (map url others) w2).1)) as Hall
    by by constructor.
  unfold get_images.
  erewrite bind_ok; [|by apply generate_visual_ok].
  erewrite bind_ok; [|by apply (for_image_url_ok _ _ _ _ _ _ _ Hseq)].
  cbn [payloads app]. erewrite bind_ok; [|done].
  rewrite external_run. cbn [fst snd obj world trace]. split; [done|].
  eexists. rewrite <- !app_assoc. split; [done|].
  rewrite !decoded_app. cbn [decoded app].
  by rewrite one_by_one_decoded.
Qed.

(** C2. Construction with a dimensions string outside the three accepted
    ones raises [ValueError]; with one of the three it succeeds and the
    instance holds exactly the four arguments, as given. *)
Theorem ImageGenerator_validates_dimensions model quality n dim m :
  (dim ∉ dimensions →
   (ImageGenerator model quality n dim m).1 =
     Raised (ValueError
               "Dimension must be '1024x1024', '1024x1792' or '1792x1024'")) ∧
  (dim ∈ dimensions →
   (ImageGenerator model quality n dim m).1 = Ok tt ∧
   let self := obj (ImageGenerator model quality n dim m).2 in
   self !! "model" = Some (VStr model) ∧
   self !! "quality" = Some (VStr quality) ∧
   self !! "n" = Some (VInt n) ∧
   self !! "dim" = Some (VStr dim) ∧
   dom self = {["model"; "quality"; "n"; "dim"]}).
Proof.
  rewrite ImageGenerator_run. cbn [fst snd obj]. split; intros Hdim.
  - by rewrite bool_decide_eq_false_2.
  - rewrite bool_decide_eq_true_2 by done. split; [done|].
    destruct (instance_dict_lookup model quality n dim) as (? & ? & ? & ?).
    cbv zeta. split_and!; [done..|].
    unfold instance_dict. rewrite !dom_insert_L, dom_empty_L. set_solver.
Qed.

(** C3. On a constructed pipeline, when the generation API answers with
    the descriptors [responses], [generate_visual] returns their URLs, all
    of them and in the order of the answer. *)
Theorem generate_visual_returns_urls_in_order
    model quality n dim d m responses w1 :
  constructed model quality n dim m →
  openai_images_generate (request_kwargs model quality n dim d) (world m)
    = (Ok responses, w1) →
  (generate_visual d m).1 = Ok (map url responses).
Proof.
  intros Hc Hgen. apply constructed_inv in Hc as [_ Ho].
  by rewrite (generate_visual_run _ _ _ _ _ _ Ho), Hgen.
Qed.

(** C4. On a constructed pipeline, [generate_visual] makes exactly one
    call: it applies the generation API, in the world it was called in, to
    the prompt made of the fixed sentence followed by the description and
    to the model, size, quality and n given at construction.  The answer of
    that application is what is logged and what decides the outcome, and
    the world the API leaves is the world [generate_visual] leaves. *)
Theorem generate_visual_sends_one_request model quality n dim d m :
  constructed model quality n dim m →
  let kw :=
    {| kw_model := VStr model;
       kw_prompt :=
         VStr ("Create a visual following this description: " +:+ d);
       kw_size := VStr dim;
       kw_quality := VStr quality;
       kw_n := VInt n |} in
  let out := openai_images_generate kw (world m) in
  trace (generate_visual d m).2 = trace m ++ [EvGenerate kw out.1] ∧
  world (generate_visual d m).2 = out.2 ∧
  (generate_visual d m).1 =
    match out.1 with
    | Ok responses => Ok (map url responses)
    | Raised e => Raised e
    end.
Proof.
  intros Hc kw out. apply constructed_inv in Hc as [_ Ho].
  by rewrite (generate_visual_run _ _ _ _ _ _ Ho).
Qed.

(** C5. [get_image_from_url] makes exactly one call, [requests.get] of the
    URL with timeout 10; when the call is answered it returns the payload
    of the answer, whatever its status code, and when the call raises (a
    timeout, for one) that exception is what it raises. *)
Theorem get_image_from_url_returns_payload u m r w1 :
  requests_get u 10 (world m) = (r, w1) →
  trace (get_image_from_url u m).2 = trace m ++ [EvGet u 10 r] ∧
  (get_image_from_url u m).1 =
    match r with
    | Ok response => Ok (content response)
    | Raised e => Raised e
    end.
Proof. intros Hget. by rewrite get_image_from_url_run, Hget. Qed.

(** C6. Construction with a dimensions string outside the three accepted
    ones raises at once: whatever the program goes on to do with the
    instance, the evaluation ends with the [ValueError], no call has been
    logged and the outside world is as it was. *)
Theorem invalid_dimensions_raise_before_any_call
    model quality n dim {A} (rest : Py W Image A) m :
  dim ∉ dimensions →
  let out := (ImageGenerator model quality n dim ;;; rest) m in
  out.1 =
    Raised
      (ValueError
         "Dimension must be '1024x1024', '1024x1792' or '1792x1024'") ∧
  trace out.2 = trace m ∧
  world out.2 = world m.
Proof.
  intros Hdim. unfold bind. rewrite ImageGenerator_run.
  by rewrite bool_decide_eq_false_2.
Qed.

(** C7. On a constructed pipeline, when the generation API answers with
    the descriptors [responses], the calls of [get_images] after the
    generation request start with the fetches of [one_by_one]: one
    [requests.get] per returned URL, in the order of the answer, each made
    in the world the previous one left, up to the first that raises; no
    call that follows them is a fetch.  When the hosts answer every fetch,
    each returned URL is fetched exactly once. *)
Theorem get_images_fetches_each_url_once_in_order
    model quality n dim d m responses w1 :
  constructed model quality n dim m →
  openai_images_generate (request_kwargs model quality n dim d) (world m)
    = (Ok responses, w1) →
  let urls := map url responses in
  let gets := (one_by_one urls w1).1 in
  (∃ rest,
     trace (get_images d m).2 =
       trace m ++
       EvGenerate (request_kwargs model quality n dim d) (Ok responses)
         :: gets ++ rest ∧
     fetched rest = []) ∧
  fetched gets `prefix_of` map (λ u, (u, 10)) urls ∧
  (answered gets → fetched gets = map (λ u, (u, 10)) urls).
Proof.
  intros Hc Hgen urls gets.
  split_and!; [|apply one_by_one_prefix|apply one_by_one_fetched].
  apply constructed_inv in Hc as [_ Ho].
  unfold get_images.
  erewrite bind_ok; [|by apply generate_visual_ok].
  unfold bind. rewrite for_image_url_run. cbn [obj world trace].
  fold urls gets. destruct (first_failure gets) as [e|]; cbn [fst snd].
  - exists []. cbn [trace fetched]. by rewrite app_nil_r, <- app_assoc.
  - unfold getitem. destruct (([] ++ payloads gets) !! 0%nat) as [data|].
    + cbn [ret]. rewrite external_run. eexists [_]. cbn [fst snd trace].
      by rewrite <- !app_assoc.
    + exists []. cbn [raise fst snd trace].
      by rewrite app_nil_r, <- app_assoc.
Qed.

(** C8. When a call made by [get_images] raises, be it the generation
    request, a fetch or the decoding, [get_images] raises that very
    exception and makes no call after it; and the attributes of the
    instance are what they were before [get_images] was called. *)
Theorem get_images_propagates_errors d m t1 ev t2 e :
  trace (get_images d m).2 = trace m ++ t1 ++ ev :: t2 →
  failed ev = Some e →
  (get_images d m).1 = Raised e ∧
  t2 = [] ∧
  obj (get_images d m).2 = obj m.
Proof.
  intros Ht Hev.
  destruct (disciplined_get_images d m) as (t & Ht' & Ho & Hp).
  rewrite Ht' in Ht. apply app_inv_head in Ht. subst t.
  destruct Hp as [Hall|(t0 & ev0 & e0 & Heq & Ht0 & Hev0 & Hr)].
  - apply Forall_app in Hall as [_ Hall]. apply Forall_inv in Hall.
    congruence.
  - symmetry in Heq.
    destruct (answered_snoc_split _ _ _ _ _ _ Ht0 Heq Hev) as [-> ->].
    split_and!; [|done..]. congruence.
Qed.

(** C10. On a constructed pipeline, when the generation API answers with
    an empty list of descriptors, [get_images] makes no further call and
    raises [IndexError] at [images[0]]. *)
Theorem get_images_empty_answer_raises_IndexError
    model quality n dim d m w1 :
  constructed model quality n dim m →
  openai_images_generate (request_kwargs model quality n dim d) (world m)
    = (Ok [], w1) →
  get_images d m =
    (Raised (IndexError "list index out of range"),
     Machine (obj m) w1
       (trace m ++
        [EvGenerate (request_kwargs model quality n dim d) (Ok [])])).
Proof.
  intros Hc Hgen. apply constructed_inv in Hc as [_ Ho].
  unfold get_images.
  erewrite bind_ok; [|by apply generate_visual_ok].
  reflexivity.
Qed.

(** C9, as the code has it. Construction checks the dimensions only: with
    an accepted dimensions string it succeeds for every integer [n], and
    the count the instance holds is that [n]. *)
Theorem ImageGenerator_stores_any_count model quality n dim m :
  dim ∈ dimensions →
  (ImageGenerator model quality n dim m).1 = Ok tt ∧
  obj (ImageGenerator model quality n dim m).2 !! "n" = Some (VInt n).
Proof.
  intros Hdim. rewrite ImageGenerator_run. cbn [fst snd obj].
  rewrite bool_decide_eq_true_2 by done. split; [done|].
  apply instance_dict_lookup.
Qed.
End Claims.

(** * The claims on the collaborators of the test suite *)

Section Examples.
Import Mock.

Lemma generator_constructed :
  constructed "dall-e" "high" 2 "1024x1024" generator.
Proof. exists start, generator. split; reflexivity. Defined.

(** The end-to-end scenario: two URLs, the image is read from the bytes
    fetched from the first. *)
Lemma get_images_decodes_first_buffer_witness :
  constructed "dall-e" "high" 2 "1024x1024" generator ∧
  @openai_images_generate _ _ two_images (request "A forest at sunset") 0%nat
    = (Ok [image1; image2], 1%nat) ∧
  @requests_get _ _ two_images (url image1) 10 1%nat = (Ok response1, 2%nat) ∧
  answered (@one_by_one _ _ two_images (map url [image2]) 2%nat).1 ∧
  (@get_images _ _ two_images "A forest at sunset" generator).1
    = Ok image1_bytes ∧
  ∃ t,
    trace (@get_images _ _ two_images "A forest at sunset" generator).2
      = trace generator ++ t ∧
    decoded t = [image1_bytes].
Proof.
  split_and!; [exact generator_constructed|reflexivity|reflexivity|
               repeat constructor|..];
  apply (@get_images_decodes_first_buffer _ _ two_images
           "dall-e" "high" 2 "1024x1024" "A forest at sunset" generator
           image1 [image2] 1%nat response1 2%nat);
  first [exact generator_constructed|reflexivity|repeat constructor].
Defined.

Lemma ImageGenerator_validates_dimensions_witness :
  ("800x600" ∉ dimensions) ∧
  (ImageGenerator "dall-e" "high" 1 "800x600" start).1
    = Raised (ValueError
                "Dimension must be '1024x1024', '1024x1792' or '1792x1024'") ∧
  ("1024x1024" ∈ dimensions) ∧
  (ImageGenerator "dall-e" "high" 2 "1024x1024" start).1 = Ok tt ∧
  obj (ImageGenerator "dall-e" "high" 2 "1024x1024" start).2 !! "n"
    = Some (VInt 2).
Proof.
  assert (Hout : "800x600" ∉ dimensions) by compute_done.
  assert (Hin : "1024x1024" ∈ dimensions) by compute_done.
  pose proof (ImageGenerator_validates_dimensions
                "dall-e" "high" 1 "800x600" start) as [Hbad _].
  pose proof (ImageGenerator_validates_dimensions
                "dall-e" "high" 2 "1024x1024" start) as [_ Hgood].
  destruct (Hgood Hin) as (Hok & _ & _ & Hn & _).
  split_and!; [exact Hout|exact (Hbad Hout)|exact Hin|exact Hok|exact Hn].
Defined.

(** The test [test_generate_visual]. *)
Lemma generate_visual_returns_urls_in_order_witness :
  constructed "dall-e" "high" 2 "1024x1024" generator ∧
  @openai_images_generate _ _ two_images
    (request "A surreal forest landscape at sunset") 0%nat
    = (Ok [image1; image2], 1%nat) ∧
  (@generate_visual _ _ two_images "A surreal forest landscape at sunset"
     generator).1
    = Ok ["https://example.com/image1.png"; "https://example.com/image2.png"].
Proof.
  split_and!; [exact generator_constructed|reflexivity|].
  apply (@generate_visual_returns_urls_in_order _ _ two_images
           "dall-e" "high" 2 "1024x1024"
           "A surreal forest landscape at sunset" generator
           [image1; image2] 1%nat);
  [exact generator_constructed|reflexivity].
Defined.

Lemma generate_visual_sends_one_request_witness :
  constructed "dall-e" "high" 2 "1024x1024" generator ∧
  trace (@generate_visual _ _ two_images "A futuristic cityscape"
           generator).2
    = trace generator ++
      [EvGenerate (request "A futuristic cityscape")
         (@openai_images_generate _ _ two_images
            (request "A futuristic cityscape") 0%nat).1] ∧
  world (@generate_visual _ _ two_images "A futuristic cityscape"
           generator).2 = 1%nat ∧
  (@generate_visual _ _ two_images "A futuristic cityscape" generator).1
    = Ok ["https://example.com/image1.png"; "https://example.com/image2.png"].
Proof.
  split; [exact generator_constructed|].
  apply (@generate_visual_sends_one_request _ _ two_images
           "dall-e" "high" 2 "1024x1024" "A futuristic cityscape" generator).
  exact generator_constructed.
Defined.

(** A host that answers 404: the error page is what is returned. *)
Lemma get_image_from_url_returns_payload_witness :
  @requests_get _ _ (collaborators [image1] not_found)
    "https://example.com/image.png" 10 0%nat = (Ok error_page, 1%nat) ∧
  trace (@get_image_from_url _ _ (collaborators [image1] not_found)
           "https://example.com/image.png" generator).2
    = [EvGet "https://example.com/image.png" 10 (Ok error_page)] ∧
  (@get_image_from_url _ _ (collaborators [image1] not_found)
     "https://example.com/image.png" generator).1
    = Ok (content error_page).
Proof.
  split; [reflexivity|].
  apply (@get_image_from_url_returns_payload _ _
           (collaborators [image1] not_found)
           "https://example.com/image.png" generator (Ok error_page) 1%nat).
  reflexivity.
Defined.

(** The configuration of [test_main_invalid_config], its instance then
    asked for an image. *)
Lemma invalid_dimensions_raise_before_any_call_witness :
  ("800x600" ∉ dimensions) ∧
  ((ImageGenerator "invalid_model" "low" (-1) "800x600" ;;;
    @get_images _ _ two_images "A forest at sunset") start).1
    = Raised (ValueError
                "Dimension must be '1024x1024', '1024x1792' or '1792x1024'") ∧
  trace ((ImageGenerator "invalid_model" "low" (-1) "800x600" ;;;
          @get_images _ _ two_images "A forest at sunset") start).2 = [] ∧
  world ((ImageGenerator "invalid_model" "low" (-1) "800x600" ;;;
          @get_images _ _ two_images "A forest at sunset") start).2 = 0%nat.
Proof.
  split; [compute_done|].
  apply (@invalid_dimensions_raise_before_any_call nat (list byte)
           "invalid_model" "low" (-1) "800x600" _
           (@get_images _ _ two_images "A forest at sunset") start).
  compute_done.
Defined.
Lemma get_images_fetches_each_url_once_in_order_witness :
  constructed "dall-e" "high" 2 "1024x1024" generator ∧
  @openai_images_generate _ _ two_images (request "A futuristic cityscape")
    0%nat = (Ok [image1; image2], 1%nat) ∧
  (∃ rest,
     trace (@get_images _ _ two_images "A futuristic cityscape" generator).2
       = trace generator ++
         EvGenerate (request "A futuristic cityscape") (Ok [image1; image2])
           :: [EvGet (url image1) 10 (Ok response1);
               EvGet (url image2) 10 (Ok response2)] ++ rest ∧
     fetched rest = []) ∧
  fetched (@one_by_one _ _ two_images (map url [image1; image2]) 1%nat).1
    = [("https://example.com/image1.png", 10);
       ("https://example.com/image2.png", 10)].
Proof.
  pose proof (@get_images_fetches_each_url_once_in_order _ _ two_images
                "dall-e" "high" 2 "1024x1024" "A futuristic cityscape"
                generator [image1; image2] 1%nat
                generator_constructed eq_refl) as (Htrace & _ & Hall).
  split_and!; [exact generator_constructed|reflexivity|exact Htrace|].
  apply Hall. repeat constructor.
Defined.

(** The fetch of the second image times out. *)
Lemma get_images_propagates_errors_witness :
  trace (@get_images _ _ (collaborators [image1; image2] second_times_out)
           "A forest at sunset" generator).2
    = trace generator ++
      [EvGenerate (request "A forest at sunset") (Ok [image1; image2]);
       EvGet (url image1) 10 (Ok response1)] ++
      EvGet (url image2) 10 (Raised timeout_error) :: [] ∧
  failed (EvGet (Image:=list byte) (url image2) 10 (Raised timeout_error))
    = Some timeout_error ∧
  (@get_images _ _ (collaborators [image1; image2] second_times_out)
     "A forest at sunset" generator).1 = Raised timeout_error ∧
  @nil (event (list byte)) = [] ∧
  obj (@get_images _ _ (collaborators [image1; image2] second_times_out)
         "A forest at sunset" generator).2 = obj generator.
Proof.
  split_and!; [reflexivity|reflexivity|..];
  apply (@get_images_propagates_errors _ _
           (collaborators [image1; image2] second_times_out)
           "A forest at sunset" generator
           [EvGenerate (request "A forest at sunset") (Ok [image1; image2]);
            EvGet (url image1) 10 (Ok response1)]
           (EvGet (url image2) 10 (Raised timeout_error)) []
           timeout_error);
  reflexivity.
Defined.

(** The provider answers with no image. *)
Lemma get_images_empty_answer_raises_IndexError_witness :
  constructed "dall-e" "high" 2 "1024x1024" generator ∧
  @openai_images_generate _ _ (collaborators [] serve)
    (request "A forest at sunset") 0%nat = (Ok [], 1%nat) ∧
  @get_images _ _ (collaborators [] serve) "A forest at sunset" generator
    = (Raised (IndexError "list index out of range"),
       Machine (obj generator) 1%nat
         [EvGenerate (request "A forest at sunset") (Ok [])]).
Proof.
  split_and!; [exact generator_constructed|reflexivity|].
  apply (@get_images_empty_answer_raises_IndexError _ _
           (collaborators [] serve)
           "dall-e" "high" 2 "1024x1024" "A forest at sunset" generator
           1%nat);
  [exact generator_constructed|reflexivity].
Defined.

(** A count of [-1], the one of [test_main_invalid_config], is stored. *)
Lemma ImageGenerator_stores_any_count_witness :
  ("1792x1024" ∈ dimensions) ∧
  (ImageGenerator "dall-e" "high" (-1) "1792x1024" start).1 = Ok tt ∧
  obj (ImageGenerator "dall-e" "high" (-1) "1792x1024" start).2 !! "n"
    = Some (VInt (-1)).
Proof.
  split; [compute_done|].
  apply (ImageGenerator_stores_any_count
           "dall-e" "high" (-1) "1792x1024" start).
  compute_done.
Defined.

(** C9 fails: a pipeline with a count of zero is constructed. *)
Lemma count_zero_is_constructed :
  ∃ m : machine nat (list byte),
    constructed "dall-e" "high" 0 "1024x1024" m ∧
    obj m !! "n" = Some (VInt 0) ∧
    ¬ (1 ≤ 0)%Z.
Proof.
  exists (Machine (instance_dict "dall-e" "high" 0 "1024x1024") 0%nat []).
  split_and!.
  - exists start. eexists. split; reflexivity.
  - reflexivity.
  - lia.
Qed.
End Examples.

(** * Further properties of the class *)

Section Further.
Context {W Image : Type} `{!External W Image}.
Implicit Types m : machine W Image.

Lemma bind_raised {A B} (c : Py W Image A) (k : A → Py W Image B) m e m' :
  c m = (Raised e, m') → bind c k m = (Raised e, m').
Proof. unfold bind. by intros ->. Qed.

Lemma generated_app (t1 t2 : list (event Image)) :
  generated (t1 ++ t2) = generated t1 ++ generated t2.
Proof.
  induction t1 as [|[] t1 IH]; simpl; [done| | |]; by rewrite ?IH.
Qed.

Lemma one_by_one_generated urls w : generated (one_by_one urls w).1 = [].
Proof.
  revert w. induction urls as [|u rest IH]; intros w; simpl; [done|].
  destruct (requests_get u 10 w) as [[response|e] w1]; simpl; [|done].
  specialize (IH w1). by destruct (one_by_one rest w1).
Qed.

Lemma one_by_one_length urls w :
  (length (one_by_one urls w).1 ≤ length urls)%nat.
Proof.
  revert w. induction urls as [|u rest IH]; intros w; simpl; [done|].
  destruct (requests_get u 10 w) as [[response|e] w1]; simpl; [|lia].
  specialize (IH w1). destruct (one_by_one rest w1). simpl in *. lia.
Qed.

(** What [get_images] does once the generation API has answered: the
    fetches of [one_by_one], then nothing if one of them raised or if there
    was none, and the decoding of the first payload otherwise. *)
Lemma get_images_after_answer model quality n dim d m responses w1 :
  obj m = instance_dict model quality n dim →
  openai_images_generate (request_kwargs model quality n dim d) (world m)
    = (Ok responses, w1) →
  let gets := (one_by_one (map url responses) w1).1 in
  ∃ rest,
    trace (get_images d m).2 =
      trace m ++
      EvGenerate (request_kwargs model quality n dim d) (Ok responses)
        :: gets ++ rest ∧
    (rest = [] ∨ ∃ data r, rest = [EvOpen data r]) ∧
    (∀ e, first_failure gets = Some e →
          (get_images d m).1 = Raised e ∧ rest = []).
Proof.
  intros Ho Hgen gets. unfold get_images.
  erewrite bind_ok; [|by apply generate_visual_ok].
  unfold bind. rewrite for_image_url_run. cbn [obj world trace].
  fold gets. destruct (first_failure gets) as [e|]; cbn [fst snd].
  - exists []. cbn [trace]. rewrite app_nil_r, <- app_assoc.
    split_and!; [done|by left|]. by intros ? [= ->].
  - unfold getitem. destruct (([] ++ payloads gets) !! 0%nat) as [data|].
    + cbn [ret]. rewrite external_run. eexists [_]. cbn [fst snd trace].
      rewrite <- !app_assoc. split_and!; [done|right; eauto|done].
    + exists []. cbn [raise fst snd trace]. rewrite app_nil_r, <- app_assoc.
      split_and!; [done|by left|done].
Qed.

(** X1. No method touches the instance: after [generate_visual],
    [get_image_from_url] or [get_images], whatever they returned or raised,
    the pipeline is still the one that was constructed. *)
Theorem methods_keep_the_pipeline model quality n dim d u m :
  constructed model quality n dim m →
  constructed model quality n dim (generate_visual d m).2 ∧
  constructed model quality n dim (get_image_from_url u m).2 ∧
  constructed model quality n dim (get_images d m).2.
Proof.
  intros (m0 & m1 & Hrun & Ho).
  destruct (disciplined_generate_visual d m) as (? & _ & Ho1 & _).
  destruct (disciplined_get_image_from_url u m) as (? & _ & Ho2 & _).
  destruct (disciplined_get_images d m) as (? & _ & Ho3 & _).
  split_and!; exists m0, m1; split; congruence.
Qed.

(** X2. On a constructed pipeline, [get_images] applies the generation
    API exactly once, in the world it was called in, to the request for its
    description; the answer of that application is the first call logged
    and no later call is a generation request.  When the API raises, that
    is the only call and the world it left is the world [get_images]
    leaves; when it answers, the fetches start in the world it left and
    are followed by at most the decoding, made in the world they leave. *)
Theorem get_images_one_generation_request model quality n dim d m :
  constructed model quality n dim m →
  let kw := request_kwargs model quality n dim d in
  let out := openai_images_generate kw (world m) in
  ∃ t,
    trace (get_images d m).2 = trace m ++ EvGenerate kw out.1 :: t ∧
    generated t = [] ∧
    match out.1 with
    | Raised e =>
        (get_images d m).1 = Raised e ∧
        t = [] ∧
        world (get_images d m).2 = out.2
    | Ok responses =>
        let seq := one_by_one (map url responses) out.2 in
        ∃ rest,
          t = seq.1 ++ rest ∧
          (rest = [] ∧ world (get_images d m).2 = seq.2 ∨
           ∃ data,
             rest = [EvOpen data (Image_open data seq.2).1] ∧
             (get_images d m).1 = (Image_open data seq.2).1 ∧
             world (get_images d m).2 = (Image_open data seq.2).2)
    end.
Proof.
  intros Hc kw out. apply constructed_inv in Hc as [_ Ho].
  subst out. unfold get_images.
  destruct (openai_images_generate kw (world m)) as [[responses|e] w1] eqn:Hgen;
    cbn [fst snd].
  - erewrite bind_ok; [|by apply generate_visual_ok].
    unfold bind. rewrite for_image_url_run. cbn [obj world trace].
    set (seq := one_by_one (map url responses) w1).
    destruct (first_failure seq.1) as [e|]; cbn [fst snd].
    + exists seq.1. cbn [trace world]. rewrite <- app_assoc.
      split_and!; [done|apply one_by_one_generated|].
      exists []. rewrite app_nil_r. auto.
    + unfold getitem. destruct (([] ++ payloads seq.1) !! 0%nat) as [data|].
      * cbn [ret]. rewrite external_run. cbn [fst snd obj world trace].
        exists (seq.1 ++ [EvOpen data (Image_open data seq.2).1]).
        rewrite <- !app_assoc. split_and!; [done| |].
        -- rewrite generated_app. unfold seq.
           by rewrite one_by_one_generated.
        -- eexists [_]. split; [done|]. right. by exists data.
      * exists seq.1. cbn [raise fst snd trace world]. rewrite <- app_assoc.
        split_and!; [done|apply one_by_one_generated|].
        exists []. rewrite app_nil_r. auto.
  - erewrite bind_raised;
      [|by rewrite (generate_visual_run _ _ _ _ _ _ Ho); fold kw;
           rewrite Hgen].
    by exists [].
Qed.

(** X3. Every image is fetched before the first is decoded, so a fetch
    that raises makes [get_images] raise even when it is the fetch of an
    image that would have been dropped: with the first payload at hand,
    the exception of a later fetch is the outcome and nothing is decoded. *)
Theorem get_images_fails_on_a_later_fetch
    model quality n dim d m first others w1 response w2 e :
  constructed model quality n dim m →
  openai_images_generate (request_kwargs model quality n dim d) (world m)
    = (Ok (first :: others), w1) →
  requests_get (url first) 10 w1 = (Ok response, w2) →
  first_failure (one_by_one (map url others) w2).1 = Some e →
  (get_images d m).1 = Raised e ∧
  ∃ t, trace (get_images d m).2 = trace m ++ t ∧
       payloads t !! 0%nat = Some (content response) ∧
       decoded t = [].
Proof.
  intros Hc Hgen Hget Hfail. apply constructed_inv in Hc as [_ Ho].
  destruct (get_images_after_answer _ _ _ _ _ _ _ _ Ho Hgen)
    as (rest & Htrace & _ & Hraise).
  cbn [map] in Htrace, Hraise.
  rewrite (one_by_one_cons_ok _ _ _ _ _ Hget) in Htrace, Hraise.
  cbn [fst first_failure failed] in Htrace, Hraise.
  destruct (Hraise e Hfail) as [Hres ->]. split; [done|].
  eexists. split; [exact Htrace|]. cbn [payloads decoded app].
  rewrite decoded_app, one_by_one_decoded. by split.
Qed.

(** X4. On a constructed pipeline, when the generation API raises,
    [get_images] raises that exception with that one call made: no image
    host is contacted and nothing is decoded. *)
Theorem get_images_generation_failure model quality n dim d m e w1 :
  constructed model quality n dim m →
  openai_images_generate (request_kwargs model quality n dim d) (world m)
    = (Raised e, w1) →
  get_images d m =
    (Raised e,
     Machine (obj m) w1
       (trace m ++
        [EvGenerate (request_kwargs model quality n dim d) (Raised e)])).
Proof.
  intros Hc Hgen. apply constructed_inv in Hc as [_ Ho].
  unfold get_images. apply bind_raised.
  by rewrite (generate_visual_run _ _ _ _ _ _ Ho), Hgen.
Qed.

(** X5. On a constructed pipeline, when the generation API answers with
    the descriptors [responses], [get_images] makes at most two calls more
    than there are descriptors: the request, a fetch per descriptor, the
    decoding. *)
Theorem get_images_call_bound model quality n dim d m responses w1 :
  constructed model quality n dim m →
  openai_images_generate (request_kwargs model quality n dim d) (world m)
    = (Ok responses, w1) →
  ∃ t, trace (get_images d m).2 = trace m ++ t ∧
       (length t ≤ length responses + 2)%nat.
Proof.
  intros Hc Hgen. apply constructed_inv in Hc as [_ Ho].
  destruct (get_images_after_answer _ _ _ _ _ _ _ _ Ho Hgen)
    as (rest & Htrace & Hrest & _).
  eexists. split; [exact Htrace|].
  pose proof (one_by_one_length (map url responses) w1) as Hlen.
  rewrite length_map in Hlen. cbn [length]. rewrite length_app.
  destruct Hrest as [->|(? & ? & ->)]; simpl; lia.
Qed.
End Further.

(** * Properties of main *)

Section MainFacts.
Context {W Image Component Demo : Type}.
Context `{!External W Image} `{!Application W Image Component Demo}.
Implicit Types m : machine W Image.
Implicit Types params : gmap string value.

Lemma ImageGenerator_call_typed model quality n dim :
  ImageGenerator_call (W:=W) (Image:=Image)
    (VStr model) (VStr quality) (VInt n) (VStr dim)
  = ImageGenerator model quality n dim.
Proof. reflexivity. Qed.

Lemma ImageGenerator_call_rejects vm vq vn vd m :
  vd ∉ allowed_dims →
  ImageGenerator_call vm vq vn vd m =
    (Raised (ValueError
               "Dimension must be '1024x1024', '1024x1792' or '1792x1024'"),
     Machine (<["dim" := vd]>
                (<["n" := vn]> (<["quality" := vq]> (<["model" := vm]> ∅))))
       (world m) (trace m)).
Proof.
  intros Hvd.
  unfold ImageGenerator_call, init_values, bind, setattr, getattr, raise.
  cbn [obj world trace]. rewrite lookup_insert_eq.
  by rewrite bool_decide_eq_true_2.
Qed.

Lemma subscript_some params key v m :
  params !! key = Some v →
  subscript (W:=W) (Image:=Image) params key m = (Ok v, m).
Proof. unfold subscript. by intros ->. Qed.

(** The start of [main]: the configuration is read and the four keys are
    looked up. *)
Lemma main_reads_configuration params w1 vn vd vm vq m :
  load_config "configs/params.yml" (world m) = (Ok params, w1) →
  params !! "n_image" = Some vn →
  params !! "image_dim" = Some vd →
  params !! "image_model" = Some vm →
  params !! "image_quality" = Some vq →
  main m =
    (ImageGenerator_call vm vq vn vd ;;; launch_interface)
      (Machine (obj m) w1 (trace m)).
Proof.
  intros Hload Hn Hd Hm Hq. unfold main.
  erewrite bind_ok; [|by rewrite Hload].
  erewrite bind_ok; [|by apply subscript_some].
  erewrite bind_ok; [|by apply subscript_some].
  erewrite bind_ok; [|by apply subscript_some].
  erewrite bind_ok; [|by apply subscript_some].
  done.
Qed.

(** X6. When the configuration holds the four keys and its [image_dim] is
    not one of the three accepted strings (an integer, for one, is not),
    [main] raises the [ValueError] of the constructor: the interface is not
    set up, and no call to the generation API, to a host or to the decoder
    is made. *)
Theorem main_rejects_unsupported_dimensions params w1 vn vd vm vq m :
  load_config "configs/params.yml" (world m) = (Ok params, w1) →
  params !! "n_image" = Some vn →
  params !! "image_dim" = Some vd →
  params !! "image_model" = Some vm →
  params !! "image_quality" = Some vq →
  vd ∉ allowed_dims →
  (main m).1 =
    Raised (ValueError
              "Dimension must be '1024x1024', '1024x1792' or '1792x1024'") ∧
  world (main m).2 = w1 ∧
  trace (main m).2 = trace m.
Proof.
  intros Hload Hn Hd Hm Hq Hvd.
  rewrite (main_reads_configuration _ _ _ _ _ _ _ Hload Hn Hd Hm Hq).
  erewrite bind_raised; [|by apply ImageGenerator_call_rejects]. done.
Qed.

(** X7. When the configuration lacks one of the keys [n_image],
    [image_dim], [image_model], [image_quality], [main] raises [KeyError]
    for the first of them, in that order, that is missing, whatever the
    other values are; no instance is built, the interface is not set up
    and no call is made. *)
Theorem main_missing_key params w1 key m :
  load_config "configs/params.yml" (world m) = (Ok params, w1) →
  first_missing params = Some key →
  main m = (Raised (KeyError key), Machine (obj m) w1 (trace m)).
Proof.
  intros Hload Hkey. unfold main.
  erewrite bind_ok; [|by rewrite Hload].
  unfold first_missing, config_keys in Hkey. cbn [find] in Hkey.
  unfold bind, subscript.
  repeat match type of Hkey with
         | context [bool_decide (?o = None)] =>
             destruct o eqn:?;
             [rewrite bool_decide_eq_false_2 in Hkey by done
             |rewrite bool_decide_eq_true_2 in Hkey by done;
              by simplify_eq]
         end.
  done.
Qed.

(** X8. When the configuration holds an integer [n_image], strings
    [image_model] and [image_quality] and an accepted [image_dim], [main]
    goes on to set up and launch the interface with a pipeline constructed
    from these four values, [n_image] as the count, and has made no call to
    the generation API, to a host or to the decoder by then. *)
Theorem main_launches_constructed_pipeline params w1 n dim model quality m :
  load_config "configs/params.yml" (world m) = (Ok params, w1) →
  params !! "n_image" = Some (VInt n) →
  params !! "image_dim" = Some (VStr dim) →
  params !! "image_model" = Some (VStr model) →
  params !! "image_quality" = Some (VStr quality) →
  dim ∈ dimensions →
  ∃ m',
    main m = launch_interface m' ∧
    constructed model quality n dim m' ∧
    world m' = w1 ∧
    trace m' = trace m.
Proof.
  intros Hload Hn Hd Hm Hq Hdim.
  rewrite (main_reads_configuration _ _ _ _ _ _ _ Hload Hn Hd Hm Hq).
  rewrite ImageGenerator_call_typed.
  pose proof (ImageGenerator_run model quality n dim
                (Machine (obj m) w1 (trace m))) as Hrun.
  rewrite bool_decide_eq_true_2 in Hrun by done. cbn [world trace] in Hrun.
  exists (Machine (instance_dict model quality n dim) w1 (trace m)).
  split_and!; [by erewrite bind_ok|by eexists _, _|done..].
Qed.
End MainFacts.

(** * The further properties on the collaborators of the test suite *)

Section FurtherExamples.
Import Mock MockApp.

Lemma methods_keep_the_pipeline_witness :
  constructed "dall-e" "high" 2 "1024x1024" generator ∧
  constructed "dall-e" "high" 2 "1024x1024"
    (@generate_visual _ _ two_images "A forest at sunset" generator).2 ∧
  constructed "dall-e" "high" 2 "1024x1024"
    (@get_image_from_url _ _ two_images (url image1) generator).2 ∧
  constructed "dall-e" "high" 2 "1024x1024"
    (@get_images _ _ two_images "A forest at sunset" generator).2.
Proof.
  split; [exact generator_constructed|].
  apply (@methods_keep_the_pipeline _ _ two_images
           "dall-e" "high" 2 "1024x1024" "A forest at sunset" (url image1)
           generator).
  exact generator_constructed.
Defined.

(** One request is sent also when a fetch times out. *)
Lemma get_images_one_generation_request_witness :
  constructed "dall-e" "high" 2 "1024x1024" generator ∧
  ∃ t,
    trace (@get_images _ _ (collaborators [image1; image2] second_times_out)
             "A forest at sunset" generator).2
      = trace generator ++
        EvGenerate (request "A forest at sunset") (Ok [image1; image2])
          :: t ∧
    generated t = [] ∧
    ∃ rest,
      t = [EvGet (url image1) 10 (Ok response1);
           EvGet (url image2) 10 (Raised timeout_error)] ++ rest ∧
      (rest = [] ∧
       world (@get_images _ _
                (collaborators [image1; image2] second_times_out)
                "A forest at sunset" generator).2 = 3%nat ∨
       ∃ data,
         rest = [EvOpen data (Ok data)] ∧
         (@get_images _ _ (collaborators [image1; image2] second_times_out)
            "A forest at sunset" generator).1 = Ok data ∧
         world (@get_images _ _
                  (collaborators [image1; image2] second_times_out)
                  "A forest at sunset" generator).2 = 4%nat).
Proof.
  split; [exact generator_constructed|].
  apply (@get_images_one_generation_request _ _
           (collaborators [image1; image2] second_times_out)
           "dall-e" "high" 2 "1024x1024" "A forest at sunset" generator).
  exact generator_constructed.
Defined.

(** The first image is fetched, the fetch of the second times out. *)
Lemma get_images_fails_on_a_later_fetch_witness :
  constructed "dall-e" "high" 2 "1024x1024" generator ∧
  @openai_images_generate _ _
    (collaborators [image1; image2] second_times_out)
    (request "A forest at sunset") 0%nat = (Ok [image1; image2], 1%nat) ∧
  @requests_get _ _ (collaborators [image1; image2] second_times_out)
    (url image1) 10 1%nat = (Ok response1, 2%nat) ∧
  first_failure
    (@one_by_one _ _ (collaborators [image1; image2] second_times_out)
       (map url [image2]) 2%nat).1 = Some timeout_error ∧
  (@get_images _ _ (collaborators [image1; image2] second_times_out)
     "A forest at sunset" generator).1 = Raised timeout_error ∧
  ∃ t,
    trace (@get_images _ _ (collaborators [image1; image2] second_times_out)
             "A forest at sunset" generator).2 = trace generator ++ t ∧
    payloads t !! 0%nat = Some image1_bytes ∧
    decoded t = [].
Proof.
  split_and!; [exact generator_constructed|reflexivity..|idtac|idtac];
  apply (@get_images_fails_on_a_later_fetch _ _
           (collaborators [image1; image2] second_times_out)
           "dall-e" "high" 2 "1024x1024" "A forest at sunset" generator
           image1 [image2] 1%nat response1 2%nat timeout_error);
  first [exact generator_constructed|reflexivity].
Defined.

Lemma get_images_generation_failure_witness :
  constructed "dall-e" "high" 2 "1024x1024" generator ∧
  @openai_images_generate _ _ refusing (request "A forest at sunset") 0%nat
    = (Raised refused, 1%nat) ∧
  @get_images _ _ refusing "A forest at sunset" generator
    = (Raised refused,
       Machine (obj generator) 1%nat
         [EvGenerate (request "A forest at sunset") (Raised refused)]).
Proof.
  split_and!; [exact generator_constructed|reflexivity|].
  apply (@get_images_generation_failure _ _ refusing
           "dall-e" "high" 2 "1024x1024" "A forest at sunset" generator
           refused 1%nat);
  [exact generator_constructed|reflexivity].
Defined.

Lemma get_images_call_bound_witness :
  constructed "dall-e" "high" 2 "1024x1024" generator ∧
  @openai_images_generate _ _ two_images (request "A forest at sunset") 0%nat
    = (Ok [image1; image2], 1%nat) ∧
  ∃ t,
    trace (@get_images _ _ two_images "A forest at sunset" generator).2
      = trace generator ++ t ∧
    (length t ≤ 4)%nat.
Proof.
  split_and!; [exact generator_constructed|reflexivity|].
  apply (@get_images_call_bound _ _ two_images
           "dall-e" "high" 2 "1024x1024" "A forest at sunset" generator
           [image1; image2] 1%nat);
  [exact generator_constructed|reflexivity].
Defined.

(** The test [test_main_invalid_config]. *)
Lemma main_rejects_unsupported_dimensions_witness :
  (VStr "800x600" ∉ allowed_dims) ∧
  (@main _ _ _ _ two_images (application invalid_config) start).1
    = Raised (ValueError
                "Dimension must be '1024x1024', '1024x1792' or '1792x1024'") ∧
  world (@main _ _ _ _ two_images (application invalid_config) start).2
    = 1%nat ∧
  trace (@main _ _ _ _ two_images (application invalid_config) start).2 = [].
Proof.
  split; [compute_done|].
  apply (@main_rejects_unsupported_dimensions _ _ _ _ two_images
           (application invalid_config) invalid_config 1%nat
           (VInt (-1)) (VStr "800x600") (VStr "invalid_model") (VStr "low")
           start);
  first [reflexivity|compute_done].
Defined.

(** [image_model] is missing: the bad [image_dim] is not reached. *)
Lemma main_missing_key_witness :
  first_missing incomplete_config = Some "image_model" ∧
  @main _ _ _ _ two_images (application incomplete_config) start
    = (Raised (KeyError "image_model"), Machine ∅ 1%nat []).
Proof.
  split; [reflexivity|].
  apply (@main_missing_key _ _ _ _ two_images
           (application incomplete_config) incomplete_config 1%nat
           "image_model" start);
  reflexivity.
Defined.

(** The test [test_main_success]. *)
Lemma main_launches_constructed_pipeline_witness :
  ("1024x1024" ∈ dimensions) ∧
  ∃ m',
    @main _ _ _ _ two_images (application config) start
      = @launch_interface _ _ _ _ two_images (application config) m' ∧
    constructed "dall-e" "high" 2 "1024x1024" m' ∧
    world m' = 1%nat ∧
    trace m' = [].
Proof.
  split; [compute_done|].
  apply (@main_launches_constructed_pipeline _ _ _ _ two_images
           (application config) config 1%nat 2 "1024x1024" "dall-e" "high"
           start);
  first [reflexivity|compute_done].
Defined.
End FurtherExamples.
